(** * acoustics_sandbox: the formula library and the Argo profile fetch

    A shallow embedding of [equations.py] and [argo.py].

    Python floats are IEEE 754 binary64 numbers, so they are Rocq's primitive
    floats here and every example below runs the arithmetic the interpreter
    runs.  A Python call either returns a value or raises; that is the type
    [outcome].  The functions are embedded one by one, each from the text of
    its own [def], and every argument documented as [float] is a Python
    float. *)

From Stdlib Require Import Floats Uint63 ZArith String List Bool DecimalString Lia.
Import ListNotations.

Set Warnings "-inexact-float".

Local Open Scope string_scope.

(** ** Python values, exceptions and outcomes *)

Module Py.

(** The built-in exceptions met in the two modules.  [LookupError] is
    Python's class of not-found failures; it is listed so that the absence
    of such a failure can be stated. *)
Inductive exn : Type :=
| SyntaxError (msg : string)
| NameError (name : string)
| TypeError (msg : string)
| ValueError (msg : string)
| ZeroDivisionError (msg : string)
| OverflowError (msg : string)
| LookupError (msg : string).

(** What evaluating an expression or calling a function ends in.
    [Complex] stands for a Python [complex] value: [float ** float] yields
    one for a negative base and a fractional exponent, and complex
    arithmetic is not followed any further. *)
Inductive outcome (A : Type) : Type :=
| Ok (a : A)
| Raise (e : exn)
| Complex.

Arguments Ok {A} a.
Arguments Raise {A} e.
Arguments Complex {A}.

Definition bind {A B : Type} (c : outcome A) (k : A -> outcome B) : outcome B :=
  match c with
  | Ok a => k a
  | Raise e => Raise e
  | Complex => Complex
  end.

Definition returns {A : Type} (c : outcome A) : bool :=
  match c with Ok _ => true | _ => false end.

Definition is_value_error {A : Type} (c : outcome A) : bool :=
  match c with Raise (ValueError _) => true | _ => false end.

Definition is_lookup_error {A : Type} (c : outcome A) : bool :=
  match c with Raise (LookupError _) => true | _ => false end.

(** The objects a name of the two modules can be bound to. *)
Inductive pyobj : Type :=
| PyNone
| PyBool (b : bool)
| PyFloat (f : float)
| PyStr (s : string)
| PyModule (name : string)
| PyFunction (name : string)
| NdArray (data : list float)
| BoolArray (data : list bool).

(** Name resolution for a name that is no local of the running function:
    the module's globals, else [NameError]. *)
Definition scope : Type := list (string * pyobj).

Fixpoint load_name (globals : scope) (x : string) : outcome pyobj :=
  match globals with
  | [] => Raise (NameError x)
  | (y, v) :: rest => if String.eqb x y then Ok v else load_name rest x
  end.

(** Use of an object as an operand of float arithmetic. *)
Definition as_float (o : pyobj) : outcome float :=
  match o with
  | PyFloat f => Ok f
  | PyBool b => Ok (if b then 1 else 0)%float
  | _ => Raise (TypeError "unsupported operand type(s)")
  end.

End Py.

Export Py.

Declare Scope py_scope.
Delimit Scope py_scope with py.
Notation "x <- c ;; k" := (bind c (fun x => k))
  (at level 61, c at next level, right associativity) : py_scope.

(** ** Float arithmetic as CPython and numpy perform it *)

Local Open Scope float_scope.

(** [+], [-] and [*] on Python floats are the IEEE operations and never
    raise.  True division raises on a zero divisor, whatever the dividend. *)
Definition py_truediv (a b : float) : outcome float :=
  if b =? 0 then Raise (ZeroDivisionError "float division by zero")
  else Ok (a / b).

(** numpy scalars divide as IEEE does: a zero divisor gives an infinity or a
    NaN (and a warning), not an exception. *)
Definition np_truediv (a b : float) : float := a / b.

Definition np_sqrt (x : float) : float := PrimFloat.sqrt x.

(** Integrality and parity of a float, read off its mantissa and exponent. *)
Definition float_is_integer (y : float) : bool :=
  match Prim2SF y with
  | S754_zero _ => true
  | S754_finite _ m e =>
      if (0 <=? e)%Z then true
      else (Z.pos m mod 2 ^ (- e) =? 0)%Z
  | _ => false
  end.

Definition float_is_odd_integer (y : float) : bool :=
  match Prim2SF y with
  | S754_finite _ m e =>
      if (0 <? e)%Z then false
      else ((Z.pos m mod 2 ^ (- e) =? 0) && Z.odd (Z.pos m / 2 ^ (- e)))%Z
  | _ => false
  end.

(** The mathematical library under the interpreter: the C [pow] that
    [float.__pow__] falls back on, the C [cos] and [sin] of the complex
    power, and numpy's [sin] and [power]. *)
Class MathLib : Type := {
  c_pow : float -> float -> float;
  c_cos : float -> float;
  c_sin : float -> float;
  np_sin : float -> float;
  np_power : float -> float -> float
}.

(** [atan2(0.0, x)] for a negative [x]: the double nearest to pi. *)
Definition c_pi : float := 3.141592653589793.

Section FloatPow.

Context {L : MathLib}.

(** The power of a negative float [iv] to a fractional exponent [iw], which
    [float_pow] hands over to the complex power ([complex_pow], [_Py_c_pow])
    with both imaginary parts zero: the modulus is [pow(hypot(iv, 0.0), iw)],
    the phase [atan2(0.0, iv) * iw], and a real or imaginary part that comes
    out infinite is an [OverflowError]; otherwise the value is a complex
    number. *)
Definition py_complex_pow (iv iw : float) : outcome float :=
  let vabs := - iv in
  let len := c_pow vabs iw in
  let phase := c_pi * iw in
  let real := len * c_cos phase in
  let imag := len * c_sin phase in
  if is_infinity real || is_infinity imag
  then Raise (OverflowError "complex exponentiation")
  else Complex.

(** [float.__pow__] (CPython, [float_pow]): the special cases are decided
    before the C library is asked, an infinite result of [pow] is an
    [OverflowError], an underflow to zero is not an error. *)
Definition py_pow (iv iw : float) : outcome float :=
  if iw =? 0 then Ok 1
  else if is_nan iv then Ok iv
  else if is_nan iw then Ok (if iv =? 1 then 1 else iw)
  else if is_infinity iw then
    let a := abs iv in
    if a =? 1 then Ok 1
    else if Bool.eqb (0 <? iw) (1 <? a) then Ok (abs iw)
    else Ok 0
  else if is_infinity iv then
    let odd := float_is_odd_integer iw in
    if 0 <? iw then Ok (if odd then iv else abs iv)
    else Ok (if odd then (if iv <? 0 then -0 else 0) else 0)
  else if iv =? 0 then
    if iw <? 0
    then Raise (ZeroDivisionError "0.0 cannot be raised to a negative power")
    else Ok (if float_is_odd_integer iw then iv else 0)
  else if (iv <? 0) && negb (float_is_integer iw) then py_complex_pow iv iw
  else
    let negate_result := (iv <? 0) && float_is_odd_integer iw in
    let iv := if iv <? 0 then - iv else iv in
    if iv =? 1 then Ok (if negate_result then -1 else 1)
    else
      let ix := c_pow iv iw in
      if is_infinity ix
      then Raise (OverflowError "(34, 'Numerical result out of range')")
      else Ok (if negate_result then - ix else ix).

End FloatPow.

(** A library to run examples with: on the exponents the module uses
    (2, 3, 4 and 1.5) powers are products and a square root, which is the
    value of the C function up to the rounding of the last place; the C
    cosine and sine are the first thirty terms of their power series, good
    for the few radians of the examples; numpy's sine is only given where
    it is exact. *)
Definition small_pow (x y : float) : float :=
  if y =? 2 then x * x
  else if y =? 3 then x * x * x
  else if y =? 4 then (x * x) * (x * x)
  else if y =? 1.5 then x * PrimFloat.sqrt x
  else nan.

Fixpoint power_series (terms : nat) (x2 term k acc : float) : float :=
  match terms with
  | O => acc
  | S terms' =>
      let term' := - term * x2 / ((k + 1) * (k + 2)) in
      power_series terms' x2 term' (k + 2) (acc + term')
  end.

Definition series_cos (x : float) : float := power_series 30 (x * x) 1 0 1.

Definition series_sin (x : float) : float := power_series 30 (x * x) x 1 x.

Definition example_lib : MathLib :=
  {| c_pow := small_pow;
     c_cos := series_cos;
     c_sin := series_sin;
     np_sin := fun x => if x =? 0 then x else nan;
     np_power := small_pow |}.

(** ** equations.py *)

Module Equations.

Local Open Scope py_scope.

(** The names bound at the top level of the module: the numpy import and
    the eight functions. *)
Definition globals : scope :=
  [ ("np", PyModule "numpy");
    ("sound_speed_seawater_leroy68", PyFunction "sound_speed_seawater_leroy68");
    ("sound_speed_seawater_leroy69", PyFunction "sound_speed_seawater_leroy69");
    ("sound_speed_sea_water_leroy08", PyFunction "sound_speed_sea_water_leroy08");
    ("sound_speed_sea_water_mackenzie81",
       PyFunction "sound_speed_sea_water_mackenzie81");
    ("international_gravity_formula", PyFunction "international_gravity_formula");
    ("pressure_to_depth_leroy98", PyFunction "pressure_to_depth_leroy98");
    ("cutoff_frequency", PyFunction "cutoff_frequency");
    ("cutoff_frequency_shallow", PyFunction "cutoff_frequency_shallow") ].

(** [np.pi] *)
Definition np_pi : float := 3.141592653589793.

(** [10**-k] on ints is the float nearest to the decimal 1e-k; [10**2] is
    the int 100.  A division by a non-zero literal ([/ 180.], [/ 61.]) cannot
    raise and is written as the IEEE division. *)

Section Formulas.

Context {L : MathLib}.

(** [sound_speed_seawater_leroy68] (lines 4-29).  Line 26 closes a
    parenthesis that was never opened,

      c = (1 + 5.28 * 10^-3 * np.sin(lat)) * D + 2.36 * 10**-6 * D**2 + 10.196)

    so the statement does not parse and the function has no body to run:
    every use of it ends in the compiler's error. *)
Definition sound_speed_seawater_leroy68 (depth lat : float) : outcome float :=
  Raise (SyntaxError "unmatched ')'").

(** [sound_speed_seawater_leroy69] (lines 32-67) *)
Definition sound_speed_seawater_leroy69 (depth sal temp : float)
  : outcome float :=
  if (temp <? -2) || (23 <? temp)
  then Raise (ValueError "Water temperature must be -2 < T < 23")
  else if (sal <? 30) || (40 <? sal)
  then Raise (ValueError "Salinity must be 30 < S < 40")
  else if (depth <? 0) || (500 <? depth)
  then Raise (ValueError "Depth must be 0 < D < 500")
  else
    t10sq <- py_pow (temp - 10) 2 ;;
    t18sq <- py_pow (temp - 18) 2 ;;
    let c := 1492.3 + 3 * (temp - 10) - 0.006 * t10sq - 0.04 * t18sq in
    let c := c + (1.2 * (sal - 35) - 0.01 * (temp - 18) * (sal - 35)
                  + depth / 61) in
    Ok c.

(** [sound_speed_sea_water_leroy08] (lines 70-103).  The fourth term reads
    the name [tmep], which is neither a parameter nor a global. *)
Definition sound_speed_sea_water_leroy08 (depth sal temp lat : float)
  : outcome float :=
  temp2 <- py_pow temp 2 ;;
  tmep <- load_name globals "tmep" ;;
  tmep <- as_float tmep ;;
  tmep3 <- py_pow tmep 3 ;;
  temp2' <- py_pow temp 2 ;;
  depth2 <- py_pow depth 2 ;;
  depth3 <- py_pow depth 3 ;;
  depth3' <- py_pow depth 3 ;;
  temp2'' <- py_pow temp 2 ;;
  Ok (1402.5 + 5 * temp - 5.44 * 1e-2 * temp2 + 2.1 * 1e-4 * tmep3
      + 1.33 * sal - 1.23 * 1e-2 * sal * temp + 8.7 * 1e-5 * sal * temp2'
      + 1.56 * 1e-2 * depth + 2.55 * 1e-7 * depth2 - 7.3 * 1e-12
      * depth3 + 1.2 * 1e-6 * depth * (lat - 45) - 9.5 * 1e-13 * temp
      * depth3' + 3 * 1e-7 * temp2'' * depth + 1.43 * 1e-5 * sal * depth).

(** [sound_speed_sea_water_mackenzie81] (lines 106-135): four assignments,
    each of the last three multiplying the running value [c]. *)
Definition sound_speed_sea_water_mackenzie81 (depth sal temp : float)
  : outcome float :=
  temp2 <- py_pow temp 2 ;;
  let c := 1448.96 + 4.591 * temp - 5.304 * 1e-2 * temp2 + 2.374 * 1e-4 in
  temp3 <- py_pow temp 3 ;;
  let c := c * temp3 + 1.340 * (sal - 35) + 1.630 * 1e-2 * depth + 1.675 in
  depth2 <- py_pow depth 2 ;;
  let c := c * 1e-7 * depth2 - 1.025 * 1e-2 * temp * (sal - 35) - 7.139 in
  depth3 <- py_pow depth 3 ;;
  let c := c * 1e-13 * temp * depth3 in
  Ok c.

(** [international_gravity_formula] (lines 138-161).  [np.sin] returns a
    numpy scalar, so every operation that follows is numpy's and none can
    raise; [corrective_term=None] is [None] here. *)
Definition international_gravity_formula (lat : float)
  (corrective_term : option float) : float :=
  let g := 1 + 5.2788 * 1e-3 * np_power (np_sin (lat * np_pi / 180)) 2 in
  let g := g - 2.36 * 1e-5 * np_power (np_sin (lat * np_pi / 180)) 4 in
  let g := g * 9.78031 in
  match corrective_term with
  | Some c => g + c
  | None => g
  end.

(** [pressure_to_depth_leroy98] (lines 164-195).  The second term of the
    pressure polynomial reads the name [P]. *)
Definition pressure_to_depth_leroy98 (press lat : float)
  (corrective_term : option float) : outcome float :=
  let a := 1 + 5.2788 * 1e-3 * np_power (np_sin (lat * np_pi / 180)) 2 - 2.36 *
             1e-5 * np_power (np_sin (lat * np_pi / 180)) 4 in
  P <- load_name globals "P" ;;
  P <- as_float P ;;
  P2 <- py_pow P 2 ;;
  press3 <- py_pow press 3 ;;
  press4 <- py_pow press 4 ;;
  let b := 9.72659 * 100 * press -
             2.2512 * 1e-1 * P2 + 2.279 * 1e-4 * press3 - 1.82 * 1e-7 *
             press4 in
  let d := np_truediv (9.780318 * a * b)
             (international_gravity_formula lat None + 1.092 * 1e-4 * press) in
  Ok (match corrective_term with
      | Some c => d + c
      | None => d
      end).

(** [cutoff_frequency] (lines 198-221): [3 / 2] is the float 1.5, all
    operands are Python floats. *)
Definition cutoff_frequency (c_water depth : float) : outcome float :=
  p <- py_pow depth 1.5 ;;
  py_truediv c_water (0.008 * p).

(** [cutoff_frequency_shallow] (lines 224-248): the quotient and its square
    are Python floats, [np.sqrt] returns a numpy scalar, so the product
    with [depth] and the outer division are numpy's. *)
Definition cutoff_frequency_shallow (c_water c_bottom depth : float)
  : outcome float :=
  q <- py_truediv c_water c_bottom ;;
  q2 <- py_pow q 2 ;;
  Ok (np_truediv c_water (depth * np_sqrt (1 - q2))).

End Formulas.

(** The deep-water cutoff as the specification words it:
    speed / (0.008 x depth^1.5), for a given value of the power. *)
Definition spec_cutoff_frequency (speed_in_water depth_pow_1_5 : float) : float :=
  speed_in_water / (0.008 * depth_pow_1_5).

End Equations.

(** ** argo.py *)

Module Argo.

Local Open Scope py_scope.

(** The names bound at the top level of the module. *)
Definition globals : scope :=
  [ ("ArgoDataFetcher", PyFunction "argopy.DataFetcher");
    ("np", PyModule "numpy");
    ("get_profile", PyFunction "get_profile") ].

(** One cast of the profile dataset: its pressure samples along [N_LEVELS],
    a missing sample being a NaN. *)
Record profile : Type := { PRES : list float }.

(** The world outside the function is the list of region requests that
    reached the data service, oldest first. *)
Definition world : Type := list pyobj.

Definition M (A : Type) : Type := world -> outcome A * world.

Definition ret {A : Type} (a : A) : M A := fun w => (Ok a, w).

Definition lift {A : Type} (c : outcome A) : M A := fun w => (c, w).

Definition bindM {A B : Type} (c : M A) (k : A -> M B) : M B :=
  fun w =>
    match c w with
    | (Ok a, w') => k a w'
    | (Raise e, w') => (Raise e, w')
    | (Complex, w') => (Complex, w')
    end.

Notation "x <~ c ;; k" := (bindM c (fun x => k))
  (at level 61, c at next level, right associativity) : py_scope.

(** [list.append]: one argument, appended in place, the call's value is
    [None]; any other number of arguments is a [TypeError] and the list is
    left as it was. *)
Definition list_append (self args : list pyobj)
  : outcome (list pyobj * pyobj) :=
  match args with
  | [x] => Ok ((self ++ [x])%list, PyNone)
  | _ =>
      Raise (TypeError
               ("list.append() takes exactly one argument ("
                ++ NilEmpty.string_of_uint (Nat.to_uint (length args))
                ++ " given)"))
  end.

(** The numpy operations of the selection loop. *)
Definition np_isnan (o : pyobj) : outcome pyobj :=
  match o with
  | NdArray d => Ok (BoolArray (map is_nan d))
  | PyFloat f => Ok (PyBool (is_nan f))
  | _ => Raise (TypeError "ufunc 'isnan' not supported for the input types")
  end.

Definition invert (o : pyobj) : outcome pyobj :=
  match o with
  | BoolArray m => Ok (BoolArray (map negb m))
  | PyBool b => Ok (PyBool (negb b))
  | _ => Raise (TypeError "bad operand type for unary ~")
  end.

Fixpoint mask_select (d : list float) (m : list bool) : list float :=
  match d, m with
  | x :: d', b :: m' => if b then x :: mask_select d' m' else mask_select d' m'
  | _, _ => []
  end.

Definition getitem (o mask : pyobj) : outcome pyobj :=
  match o, mask with
  | NdArray d, BoolArray m =>
      if Nat.eqb (length d) (length m) then Ok (NdArray (mask_select d m))
      else Raise (LookupError "boolean index did not match indexed array")
  | _, _ => Raise (TypeError "object is not subscriptable")
  end.

Definition ge (o : pyobj) (t : float) : outcome pyobj :=
  match o with
  | NdArray d => Ok (BoolArray (map (fun x => (t <=? x)%float) d))
  | PyFloat f => Ok (PyBool (t <=? f)%float)
  | _ => Raise (TypeError "'>=' not supported between these instances")
  end.

Definition truth (o : pyobj) : outcome bool :=
  match o with
  | PyNone => Ok false
  | PyBool b => Ok b
  | PyFloat f => Ok (negb (f =? 0)%float)
  | PyStr s => Ok (negb (String.eqb s ""))
  | BoolArray [] => Ok false
  | BoolArray [b] => Ok b
  | NdArray [] => Ok false
  | NdArray [x] => Ok (negb (x =? 0)%float)
  | BoolArray _ | NdArray _ =>
      Raise (ValueError
        "The truth value of an array with more than one element is ambiguous")
  | _ => Ok true
  end.

(** [argo_profiles.isel(N_PROF=i)] *)
Definition isel (argo_profiles : list profile) (i : nat) : outcome profile :=
  match nth_error argo_profiles i with
  | Some p => Ok p
  | None => Raise (LookupError "index out of bounds")
  end.

(** The [for] loop of lines 38-44 over the remaining profile numbers; it
    ends when the list is used up or at the [break]. *)
Fixpoint select_loop (argo_profiles : list profile) (n_prof : list nat)
  (max_db : float) : outcome unit :=
  match n_prof with
  | [] => Ok tt
  | argo_profiler :: rest =>
      curr_profile <- isel argo_profiles argo_profiler ;;
      let curr_press := NdArray (PRES curr_profile) in
      curr_pres <- load_name globals "curr_pres" ;;
      curr_pres' <- load_name globals "curr_pres" ;;
      nans <- np_isnan curr_pres' ;;
      present <- invert nans ;;
      num_samples <- getitem curr_pres present ;;
      enough <- ge num_samples (max_db / 2)%float ;;
      stop <- truth enough ;;
      if stop then Ok tt else select_loop argo_profiles rest max_db
  end.

(** Lines 38-46: the loop over [list(argo_profiles.N_PROF.data)], the
    profile numbers 0 .. n-1 of a dataset of n casts, and the
    [return argo_profile] that follows it. *)
Definition select_profile (argo_profiles : list profile) (max_db : float)
  : outcome pyobj :=
  _ <- select_loop argo_profiles (seq 0 (length argo_profiles)) max_db ;;
  load_name globals "argo_profile".

Section Retrieval.

(** The external data service: what
    [ArgoDataFetcher().region(params).to_xarray().argo.point2profile()]
    yields for a request, or the error it fails with. *)
Variable service : pyobj -> outcome (list profile).

Definition region_query (argo_params : pyobj) : M (list profile) :=
  fun w => (service argo_params, (w ++ [argo_params])%list).

(** [get_profile] (lines 5-46) *)
Definition get_profile (bbox : list pyobj) (dtg_start dtg_end : string)
  (min_db max_db : float) : M pyobj :=
  appended <~ lift (list_append bbox
                      [PyFloat min_db; PyFloat max_db;
                       PyStr dtg_start; PyStr dtg_end]) ;;
  let argo_params := snd appended in
  argo_profiles <~ region_query argo_params ;;
  lift (select_profile argo_profiles max_db).

End Retrieval.

(** The selection rule as the specification words it: the count of present
    (non-missing) pressure samples of a cast, the threshold of half the
    maximum pressure bound, and the first cast in service order to reach
    it. *)
Definition present_count (p : profile) : nat :=
  length (filter (fun x => negb (is_nan x)) (PRES p)).

Definition qualifies (max_pressure : float) (p : profile) : bool :=
  (max_pressure / 2 <=? PrimFloat.of_uint63 (Uint63.of_Z (Z.of_nat (present_count p))))%float.

Definition spec_first_qualifying (casts : list profile) (max_pressure : float)
  : option profile :=
  find (qualifies max_pressure) casts.

(** A fixture service with casts of known sample densities. *)
Definition cast_of (samples : nat) : profile := {| PRES := repeat 10%float samples |}.

Definition fixture_service (casts : list profile) : pyobj -> outcome (list profile) :=
  fun _ => Ok casts.

Definition fixture_bbox : list pyobj :=
  [PyFloat (-75); PyFloat (-45); PyFloat 20; PyFloat 30].

End Argo.

(** ** Classifiers of outcomes and of floats used in the statements *)

Definition is_zero_division_error {A : Type} (c : outcome A) : bool :=
  match c with Raise (ZeroDivisionError _) => true | _ => false end.

Definition is_overflow_error {A : Type} (c : outcome A) : bool :=
  match c with Raise (OverflowError _) => true | _ => false end.

(** A float that is a zero of either sign or a NaN. *)
Definition zero_or_nan (z : float) : bool := (z =? 0)%float || is_nan z.

(** An outcome that carries no sound speed: a zero, a NaN, or an overflow of
    one of the powers. *)
Definition degenerate_outcome (c : outcome float) : bool :=
  match c with
  | Ok v => zero_or_nan v
  | Raise (OverflowError _) => true
  | _ => false
  end.

(** A binary64 value, in the form the specification of the primitive
    floats gives it, that is no NaN and has the sign bit clear: +0, a
    positive finite number or +infinity. *)
Definition sf_nonneg (x : spec_float) : bool :=
  match x with
  | S754_zero false | S754_infinity false | S754_finite false _ _ => true
  | _ => false
  end.

(** The float 1.0 in that form, and the bound 2^53 of a mantissa. *)
Definition sf_one : spec_float := S754_finite false 4503599627370496 (-52).

Definition two_53 : Z := 9007199254740992.

(** The three comparisons of lines 57, 59 and 61 of [equations.py]. *)
Definition leroy69_temp_check (temp : float) : bool :=
  ((temp <? -2) || (23 <? temp))%float.

Definition leroy69_sal_check (sal : float) : bool :=
  ((sal <? 30) || (40 <? sal))%float.

Definition leroy69_depth_check (depth : float) : bool :=
  ((depth <? 0) || (500 <? depth))%float.

(** ** Properties of the float power and of name resolution *)

Section PowFacts.

Context {L : MathLib}.

(** [float.__pow__] has no [ValueError] among its failures. *)
Lemma py_pow_not_value_error (x y : float) :
  is_value_error (py_pow x y) = false.
Proof.
  unfold py_pow, py_complex_pow.
  repeat match goal with
         | |- context [if ?b then _ else _] => destruct b
         end; reflexivity.
Qed.

(** With a non-negative integral exponent such as 2, 3 or 4 the power is a
    float or an [OverflowError]. *)
Lemma py_pow_2_cases (x : float) :
  (exists v, py_pow x 2 = Ok v)
  \/ py_pow x 2 = Raise (OverflowError "(34, 'Numerical result out of range')").
Proof.
  unfold py_pow.
  change (2 =? 0)%float with false.
  change (is_nan 2) with false.
  change (is_infinity 2) with false.
  change (0 <? 2)%float with true.
  change (2 <? 0)%float with false.
  change (float_is_integer 2) with true.
  change (float_is_odd_integer 2) with false.
  cbv iota.
  rewrite Bool.andb_false_r. cbv iota.
  repeat match goal with
         | |- context [if ?b then _ else _] => destruct b
         end; eauto.
Qed.

(** Zero to the power 1.5 is zero, and the C library is not consulted. *)
Lemma py_pow_zero_three_halves : py_pow 0 1.5 = Ok 0%float.
Proof. reflexivity. Qed.

End PowFacts.

Lemma py_truediv_by_zero (a : float) :
  py_truediv a 0 = Raise (ZeroDivisionError "float division by zero").
Proof. reflexivity. Qed.

Lemma py_truediv_not_value_error (a b : float) :
  is_value_error (py_truediv a b) = false.
Proof. unfold py_truediv. destruct (b =? 0)%float; reflexivity. Qed.

Lemma load_name_unbound_P :
  load_name Equations.globals "P" = Raise (NameError "P").
Proof. reflexivity. Qed.

Lemma load_name_unbound_tmep :
  load_name Equations.globals "tmep" = Raise (NameError "tmep").
Proof. reflexivity. Qed.

Lemma load_name_unbound_curr_pres :
  load_name Argo.globals "curr_pres" = Raise (NameError "curr_pres").
Proof. reflexivity. Qed.

Lemma load_name_unbound_argo_profile :
  load_name Argo.globals "argo_profile" = Raise (NameError "argo_profile").
Proof. reflexivity. Qed.

(** ** Profile retrieval *)

Section RetrievalFacts.

Variable service : pyobj -> outcome (list Argo.profile).

(** The selection of lines 38-46 ends in a [NameError] for every dataset:
    with no cast the loop body never runs and [argo_profile] is read, with a
    cast the first pass reads [curr_pres]. *)
Lemma select_profile_name_error (argo_profiles : list Argo.profile)
  (max_db : float) :
  Argo.select_profile argo_profiles max_db
  = Raise (NameError (match argo_profiles with
                      | [] => "argo_profile"
                      | _ :: _ => "curr_pres"
                      end)).
Proof. destruct argo_profiles; reflexivity. Qed.

(** The first statement of [get_profile] fails and nothing after it runs. *)
Lemma get_profile_type_error (bbox : list pyobj) (dtg_start dtg_end : string)
  (min_db max_db : float) (w : Argo.world) :
  Argo.get_profile service bbox dtg_start dtg_end min_db max_db w
  = (Raise (TypeError "list.append() takes exactly one argument (4 given)"), w).
Proof. reflexivity. Qed.

End RetrievalFacts.

(** C1: on the fixture with casts of 100, 500 and 1100 present samples and
    a maximum pressure of 2000, the first cast to reach the threshold of
    1000 is the third one, yet [get_profile] returns no profile: it raises
    the [TypeError] of its first statement and the service sees no request. *)
Theorem C1_get_profile_returns_no_profile :
  Argo.spec_first_qualifying
    [Argo.cast_of 100; Argo.cast_of 500; Argo.cast_of 1100] 2000
  = Some (Argo.cast_of 1100)
  /\ Argo.get_profile
       (Argo.fixture_service
          [Argo.cast_of 100; Argo.cast_of 500; Argo.cast_of 1100])
       Argo.fixture_bbox "2020-01-01" "2020-12-31" 0 2000 []
     = (Raise (TypeError "list.append() takes exactly one argument (4 given)"), []).
Proof. split; vm_compute; reflexivity. Qed.

(** C2, as stated, fails: on the fixture with casts of 100 and 500 present
    samples and a maximum pressure of 2000 no cast reaches the threshold,
    and the failure of [get_profile] is not a not-found error. *)
Lemma C2_sparse_fixture_no_lookup_error :
  Argo.spec_first_qualifying [Argo.cast_of 100; Argo.cast_of 500] 2000 = None
  /\ is_lookup_error
       (fst (Argo.get_profile
               (Argo.fixture_service [Argo.cast_of 100; Argo.cast_of 500])
               Argo.fixture_bbox "2020-01-01" "2020-12-31" 0 2000 []))
     = false.
Proof. split; vm_compute; reflexivity. Qed.

(** C2, amended: [get_profile] has no no-qualifying-data failure.  For
    every service, every input and every dataset, neither the function nor
    its selection loop ends in a not-found error. *)
Theorem C2_get_profile_never_lookup_error :
  (forall (service : pyobj -> outcome (list Argo.profile))
          (bbox : list pyobj) (dtg_start dtg_end : string)
          (min_db max_db : float) (w : Argo.world),
      is_lookup_error
        (fst (Argo.get_profile service bbox dtg_start dtg_end min_db max_db w))
      = false)
  /\ (forall (argo_profiles : list Argo.profile) (max_db : float),
         is_lookup_error (Argo.select_profile argo_profiles max_db) = false).
Proof.
  split.
  - intros. rewrite get_profile_type_error. reflexivity.
  - intros. rewrite select_profile_name_error. reflexivity.
Qed.

(** C9: for every service and every input, [get_profile] fails with the
    [TypeError] of [bbox.append] called with four arguments; the list of
    requests that reached the service is unchanged, and no profile is
    returned. *)
Theorem C9_get_profile_fails_before_query
  (service : pyobj -> outcome (list Argo.profile))
  (bbox : list pyobj) (dtg_start dtg_end : string)
  (min_db max_db : float) (w : Argo.world) :
  Argo.list_append bbox
    [PyFloat min_db; PyFloat max_db; PyStr dtg_start; PyStr dtg_end]
  = Raise (TypeError "list.append() takes exactly one argument (4 given)")
  /\ Argo.get_profile service bbox dtg_start dtg_end min_db max_db w
     = (Raise (TypeError "list.append() takes exactly one argument (4 given)"), w)
  /\ returns
       (fst (Argo.get_profile service bbox dtg_start dtg_end min_db max_db w))
     = false.
Proof. repeat split. Qed.

(** ** Leroy 1969: the validation *)

Section Leroy69Facts.

Context {L : MathLib}.

(** The three checks run in the order temperature, salinity, depth, and
    the first one to fail gives the message. *)
Lemma leroy69_temperature_first (depth sal temp : float) :
  ((temp <? -2) || (23 <? temp))%float = true ->
  Equations.sound_speed_seawater_leroy69 depth sal temp
  = Raise (ValueError "Water temperature must be -2 < T < 23").
Proof.
  intros H. unfold Equations.sound_speed_seawater_leroy69.
  rewrite H. reflexivity.
Qed.

Lemma leroy69_salinity_second (depth sal temp : float) :
  ((temp <? -2) || (23 <? temp))%float = false ->
  ((sal <? 30) || (40 <? sal))%float = true ->
  Equations.sound_speed_seawater_leroy69 depth sal temp
  = Raise (ValueError "Salinity must be 30 < S < 40").
Proof.
  intros Ht Hs. unfold Equations.sound_speed_seawater_leroy69.
  rewrite Ht, Hs. reflexivity.
Qed.

Lemma leroy69_depth_third (depth sal temp : float) :
  ((temp <? -2) || (23 <? temp))%float = false ->
  ((sal <? 30) || (40 <? sal))%float = false ->
  ((depth <? 0) || (500 <? depth))%float = true ->
  Equations.sound_speed_seawater_leroy69 depth sal temp
  = Raise (ValueError "Depth must be 0 < D < 500").
Proof.
  intros Ht Hs Hd. unfold Equations.sound_speed_seawater_leroy69.
  rewrite Ht, Hs, Hd. reflexivity.
Qed.

(** A [ValueError] is raised exactly when one of the three comparisons of
    the code holds; the comparisons are strict, so the six bounds
    themselves pass. *)
Lemma leroy69_value_error_iff (depth sal temp : float) :
  is_value_error (Equations.sound_speed_seawater_leroy69 depth sal temp)
  = ((temp <? -2) || (23 <? temp) || ((sal <? 30) || (40 <? sal))
     || ((depth <? 0) || (500 <? depth)))%float.
Proof.
  unfold Equations.sound_speed_seawater_leroy69.
  destruct ((temp <? -2) || (23 <? temp))%float; [reflexivity|].
  destruct ((sal <? 30) || (40 <? sal))%float; [reflexivity|].
  destruct ((depth <? 0) || (500 <? depth))%float; [reflexivity|].
  cbn [orb].
  pose proof (py_pow_not_value_error (temp - 10) 2) as H10.
  pose proof (py_pow_not_value_error (temp - 18) 2) as H18.
  destruct (py_pow (temp - 10) 2) as [a| e |]; cbn [bind];
    [ | exact H10 | reflexivity].
  destruct (py_pow (temp - 18) 2) as [b| e |]; cbn [bind];
    [ reflexivity | exact H18 | reflexivity].
Qed.

End Leroy69Facts.

(** C3: at the temperature bound -2 (salinity 35, depth 100), a point
    outside the open interval (-2, 23), the code raises no [ValueError]
    whatever the mathematical library, and with the example library it
    returns a speed; the same holds at the depth bound 0.  For
    temperature -3, salinity 45 and depth 600 it raises with the message of
    the first violated constraint, and for temperature 10, salinity 35,
    depth 100 it returns a speed. *)
Theorem C3_leroy69_accepts_the_bounds :
  (forall L : MathLib,
      is_value_error
        (Equations.sound_speed_seawater_leroy69 (L := L) 100 35 (-2)) = false)
  /\ Equations.sound_speed_seawater_leroy69 (L := example_lib) 100 35 (-2)
     = Ok 1441.0753442622949%float
  /\ returns (Equations.sound_speed_seawater_leroy69 (L := example_lib) 0 35 10)
     = true
  /\ Equations.sound_speed_seawater_leroy69 (L := example_lib) 600 45 (-3)
     = Raise (ValueError "Water temperature must be -2 < T < 23")
  /\ Equations.sound_speed_seawater_leroy69 (L := example_lib) 600 45 10
     = Raise (ValueError "Salinity must be 30 < S < 40")
  /\ Equations.sound_speed_seawater_leroy69 (L := example_lib) 600 35 10
     = Raise (ValueError "Depth must be 0 < D < 500")
  /\ Equations.sound_speed_seawater_leroy69 (L := example_lib) 100 35 10
     = Ok 1491.379344262295%float.
Proof.
  split; [| repeat split; vm_compute; reflexivity].
  intros L. rewrite leroy69_value_error_iff. reflexivity.
Qed.

(** ** The cutoff frequencies *)

Section CutoffFacts.

Context {L : MathLib}.

(** What [cutoff_frequency_shallow] can end in: a float, the
    [ZeroDivisionError] of [c_water / c_bottom], or the [OverflowError] of
    the square. *)
Lemma cutoff_frequency_shallow_not_value_error (c_water c_bottom depth : float) :
  is_value_error (Equations.cutoff_frequency_shallow c_water c_bottom depth)
  = false.
Proof.
  unfold Equations.cutoff_frequency_shallow.
  pose proof (py_truediv_not_value_error c_water c_bottom) as Hq.
  destruct (py_truediv c_water c_bottom) as [q| e |]; cbn [bind];
    [ | exact Hq | reflexivity].
  pose proof (py_pow_not_value_error q 2) as Hp.
  destruct (py_pow q 2) as [q2| e |]; cbn [bind];
    [ reflexivity | exact Hp | reflexivity].
Qed.

(** When the power is a float and the divisor is not zero, the deep-water
    cutoff is the quotient. *)
Lemma cutoff_frequency_value (c_water depth p : float) :
  py_pow depth 1.5 = Ok p ->
  (0.008 * p =? 0)%float = false ->
  Equations.cutoff_frequency c_water depth = Ok (c_water / (0.008 * p))%float.
Proof.
  intros Hp Hz. unfold Equations.cutoff_frequency, py_truediv.
  rewrite Hp. cbn [bind]. rewrite Hz. reflexivity.
Qed.

End CutoffFacts.

(** C8, as stated, fails: at depth 0 (speed 1500) [cutoff_frequency]
    returns no value, it raises [ZeroDivisionError]. *)
Lemma C8_cutoff_frequency_zero_depth_no_value :
  Equations.cutoff_frequency (L := example_lib) 1500 0
  = Raise (ZeroDivisionError "float division by zero")
  /\ returns (Equations.cutoff_frequency (L := example_lib) 1500 0) = false.
Proof. split; vm_compute; reflexivity. Qed.

(** C8, amended: for every speed [c_water] and every depth whose power
    depth ** 1.5 is a float [p] with 0.008 * p different from zero,
    [cutoff_frequency] returns c_water / (0.008 * p), the value of the
    specification's formula. *)
Theorem C8_cutoff_frequency_formula (L : MathLib) (c_water depth p : float) :
  py_pow depth 1.5 = Ok p ->
  (0.008 * p =? 0)%float = false ->
  Equations.cutoff_frequency c_water depth
  = Ok (Equations.spec_cutoff_frequency c_water p).
Proof. intros Hp Hz. apply cutoff_frequency_value; assumption. Qed.

(** The amended C8 at speed 1500 and depth 100 with the example library:
    the power is 1000, the divisor 8 and the cutoff 187.5. *)
Lemma C8_cutoff_frequency_formula_witness :
  py_pow (L := example_lib) 100 1.5 = Ok 1000%float
  /\ (0.008 * 1000 =? 0)%float = false
  /\ Equations.cutoff_frequency (L := example_lib) 1500 100
     = Ok (Equations.spec_cutoff_frequency 1500 1000)
  /\ Equations.spec_cutoff_frequency 1500 1000 = 187.5%float.
Proof.
  split; [vm_compute; reflexivity|].
  split; [vm_compute; reflexivity|].
  split; [|vm_compute; reflexivity].
  apply (C8_cutoff_frequency_formula example_lib 1500 100 1000).
  - vm_compute; reflexivity.
  - vm_compute; reflexivity.
Defined.

(** C10: for depth 0 and every speed [c_water], whatever the mathematical
    library, the divisor 0.008 * depth ** 1.5 is zero and
    [cutoff_frequency] raises [ZeroDivisionError] instead of returning. *)
Theorem C10_cutoff_frequency_zero_depth_raises
  (L : MathLib) (c_water : float) :
  (exists p, py_pow 0 1.5 = Ok p /\ (0.008 * p)%float = 0%float)
  /\ Equations.cutoff_frequency c_water 0
     = Raise (ZeroDivisionError "float division by zero").
Proof.
  split; [exists 0%float; split; reflexivity | reflexivity].
Qed.

(** ** The unvalidated sound-speed formulas, gravity and depth *)

Section FormulaFacts.

Context {L : MathLib}.

(** Leroy 2008 never returns: the square of the temperature overflows, or
    the name [tmep] is read. *)
Lemma leroy08_outcome (depth sal temp lat : float) :
  Equations.sound_speed_sea_water_leroy08 depth sal temp lat
  = Raise (NameError "tmep")
  \/ Equations.sound_speed_sea_water_leroy08 depth sal temp lat
     = Raise (OverflowError "(34, 'Numerical result out of range')").
Proof.
  unfold Equations.sound_speed_sea_water_leroy08.
  destruct (py_pow_2_cases temp) as [[v Hv] | Ho].
  - rewrite Hv. left. reflexivity.
  - rewrite Ho. right. reflexivity.
Qed.

(** The depth conversion never returns either: the name [P] is read before
    any power of the pressure is taken. *)
Lemma pressure_to_depth_name_error (press lat : float)
  (corrective_term : option float) :
  Equations.pressure_to_depth_leroy98 press lat corrective_term
  = Raise (NameError "P").
Proof. reflexivity. Qed.

(** The corrective term of the gravity formula is added to the finished
    value. *)
Lemma gravity_corrective_term (lat c : float) :
  Equations.international_gravity_formula lat (Some c)
  = (Equations.international_gravity_formula lat None + c)%float.
Proof. reflexivity. Qed.

End FormulaFacts.

(** C5: none of the three functions returns the value of its published
    equation.  Leroy 1968 does not parse; Leroy 2008 raises for every input
    (for depth 100, salinity 35, temperature 10, latitude 45 the
    [NameError] of [tmep]); Mackenzie 1981 at depth 0, salinity 35,
    temperature 0, where the nine-term equation is its leading constant
    1448.96, returns -0.0. *)
Theorem C5_sound_speed_formulas_diverge :
  (forall (L : MathLib) (depth lat : float),
      Equations.sound_speed_seawater_leroy68 depth lat
      = Raise (SyntaxError "unmatched ')'"))
  /\ (forall (L : MathLib) (depth sal temp lat : float),
         returns (Equations.sound_speed_sea_water_leroy08 depth sal temp lat)
         = false)
  /\ Equations.sound_speed_sea_water_leroy08 (L := example_lib) 100 35 10 45
     = Raise (NameError "tmep")
  /\ (forall L : MathLib,
         Equations.sound_speed_sea_water_mackenzie81 0 35 0 = Ok (-0)%float).
Proof.
  split; [reflexivity|].
  split.
  - intros L depth sal temp lat.
    destruct (leroy08_outcome depth sal temp lat) as [H | H];
      rewrite H; reflexivity.
  - split; [vm_compute; reflexivity | intros L; reflexivity].
Qed.

(** C6: [pressure_to_depth_leroy98] returns no depth at any pressure, so
    there are no two depths to compare: for every pressure, latitude and
    corrective term, whatever the mathematical library, the call raises the
    [NameError] of [P], as it does at pressures 10 and 20 for latitude 45. *)
Theorem C6_pressure_to_depth_never_returns :
  (forall (L : MathLib) (press lat : float) (corrective_term : option float),
      Equations.pressure_to_depth_leroy98 press lat corrective_term
      = Raise (NameError "P"))
  /\ Equations.pressure_to_depth_leroy98 (L := example_lib) 10 45 None
     = Raise (NameError "P")
  /\ Equations.pressure_to_depth_leroy98 (L := example_lib) 20 45 None
     = Raise (NameError "P").
Proof. repeat split. Qed.

(** C7: the gravity formula adds the corrective term to its finished value,
    for every latitude and term; the depth conversion does not reach its
    corrective term: with a term of 0.01 at pressure 10 and latitude 45, as
    for every other input, it raises the [NameError] of [P]. *)
Theorem C7_corrective_term :
  (forall (L : MathLib) (lat c : float),
      Equations.international_gravity_formula lat (Some c)
      = (Equations.international_gravity_formula lat None + c)%float)
  /\ (forall (L : MathLib) (press lat c : float),
         Equations.pressure_to_depth_leroy98 press lat (Some c)
         = Raise (NameError "P"))
  /\ Equations.pressure_to_depth_leroy98 (L := example_lib) 10 45 (Some 0.01%float)
     = Raise (NameError "P").
Proof. repeat split. Qed.

(** ** Facts about binary64 arithmetic, from the specification of the
       primitive floats *)

Lemma SFcompare_refl_finite (s : bool) (m : positive) (e : Z) :
  SFcompare (S754_finite s m e) (S754_finite s m e) = Some Eq.
Proof.
  simpl. rewrite Z.compare_refl.
  destruct s; rewrite ?Pos.compare_cont_refl; reflexivity.
Qed.

Lemma is_nan_spec (x : float) : is_nan x = true <-> Prim2SF x = S754_nan.
Proof.
  unfold is_nan. rewrite FloatAxioms.eqb_spec. unfold SFeqb.
  destruct (Prim2SF x) as [s| s | | s m e] eqn:E.
  - simpl. split; discriminate.
  - destruct s; simpl; split; discriminate.
  - simpl. split; reflexivity.
  - rewrite SFcompare_refl_finite. simpl. split; discriminate.
Qed.

Lemma zero_or_nan_spec (z : float) :
  zero_or_nan z = true
  <-> (exists s, Prim2SF z = S754_zero s) \/ Prim2SF z = S754_nan.
Proof.
  unfold zero_or_nan, is_nan. rewrite !FloatAxioms.eqb_spec.
  change (Prim2SF 0) with (S754_zero false). unfold SFeqb.
  destruct (Prim2SF z) as [s| s | | s m e] eqn:E.
  - simpl. split; eauto.
  - destruct s; simpl;
      (split; [discriminate | intros [[s' H] | H]; discriminate]).
  - simpl. split; eauto.
  - rewrite SFcompare_refl_finite.
    destruct s; simpl;
      (split; [discriminate | intros [[s' H] | H]; discriminate]).
Qed.

(** A product with a zero or a NaN is a zero or a NaN. *)
Lemma mul_zero_or_nan_l (z y : float) :
  zero_or_nan z = true -> zero_or_nan (z * y) = true.
Proof.
  rewrite !zero_or_nan_spec, FloatAxioms.mul_spec. unfold SF64mul.
  intros [[s H] | H]; rewrite H; destruct (Prim2SF y); simpl; eauto.
Qed.

Lemma mul_zero_or_nan_r (z y : float) :
  zero_or_nan z = true -> zero_or_nan (y * z) = true.
Proof.
  rewrite !zero_or_nan_spec, FloatAxioms.mul_spec. unfold SF64mul.
  intros [[s H] | H]; rewrite H; destruct (Prim2SF y); simpl; eauto.
Qed.

(** A NaN compares false with everything and survives the operations. *)
Lemma nan_ltb (x y : float) :
  is_nan x = true -> (x <? y)%float = false /\ (y <? x)%float = false.
Proof.
  rewrite is_nan_spec. intros H. rewrite !FloatAxioms.ltb_spec, H. unfold SFltb.
  split; [reflexivity | destruct (Prim2SF y); reflexivity].
Qed.

Lemma nan_eqb (x y : float) : is_nan x = true -> (x =? y)%float = false.
Proof.
  rewrite is_nan_spec, FloatAxioms.eqb_spec. intros H. rewrite H. reflexivity.
Qed.

Lemma nan_sub_l (x y : float) : is_nan x = true -> is_nan (x - y) = true.
Proof.
  rewrite !is_nan_spec, FloatAxioms.sub_spec. intros H. rewrite H. reflexivity.
Qed.

Lemma nan_mul_r (x y : float) : is_nan y = true -> is_nan (x * y) = true.
Proof.
  rewrite !is_nan_spec, FloatAxioms.mul_spec. intros H. rewrite H.
  unfold SF64mul. destruct (Prim2SF x); reflexivity.
Qed.

Lemma nan_div_r (x y : float) : is_nan y = true -> is_nan (x / y) = true.
Proof.
  rewrite !is_nan_spec, FloatAxioms.div_spec. intros H. rewrite H.
  unfold SF64div. destruct (Prim2SF x); reflexivity.
Qed.



Section PowIntegerFacts.

Context {L : MathLib}.

(** As for the square, the cube of a float is a float or an
    [OverflowError]. *)
Lemma py_pow_3_cases (x : float) :
  (exists v, py_pow x 3 = Ok v)
  \/ py_pow x 3 = Raise (OverflowError "(34, 'Numerical result out of range')").
Proof.
  unfold py_pow.
  change (3 =? 0)%float with false.
  change (is_nan 3) with false.
  change (is_infinity 3) with false.
  change (0 <? 3)%float with true.
  change (3 <? 0)%float with false.
  change (float_is_integer 3) with true.
  change (float_is_odd_integer 3) with true.
  cbv iota.
  rewrite Bool.andb_false_r. cbv iota.
  repeat match goal with
         | |- context [if ?b then _ else _] => destruct b
         end; eauto.
Qed.

Lemma py_pow_zero_2 : py_pow 0 2 = Ok 0%float.
Proof. reflexivity. Qed.

Lemma py_pow_zero_3 : py_pow 0 3 = Ok 0%float.
Proof. reflexivity. Qed.

(** A NaN base comes back as it is. *)
Lemma py_pow_nan_base (x y : float) :
  (y =? 0)%float = false -> is_nan x = true -> py_pow x y = Ok x.
Proof. intros Hy Hx. unfold py_pow. rewrite Hy, Hx. reflexivity. Qed.

End PowIntegerFacts.

(** ** Further properties of the formula library *)

(** X1: [sound_speed_seawater_leroy69] raises a [ValueError] with a given
    message exactly when that message belongs to the first of the three
    checks (temperature, salinity, depth, in this order) whose comparison
    holds; the two squares that follow the checks never add a
    [ValueError] of their own. *)
Theorem X1_leroy69_error_messages
  (L : MathLib) (depth sal temp : float) (msg : string) :
  Equations.sound_speed_seawater_leroy69 depth sal temp
  = Raise (ValueError msg)
  <-> (leroy69_temp_check temp = true
       /\ msg = "Water temperature must be -2 < T < 23")
      \/ (leroy69_temp_check temp = false
          /\ leroy69_sal_check sal = true
          /\ msg = "Salinity must be 30 < S < 40")
      \/ (leroy69_temp_check temp = false
          /\ leroy69_sal_check sal = false
          /\ leroy69_depth_check depth = true
          /\ msg = "Depth must be 0 < D < 500").
Proof.
  unfold leroy69_temp_check, leroy69_sal_check, leroy69_depth_check.
  split.
  - intros H.
    destruct ((temp <? -2) || (23 <? temp))%float eqn:Ht.
    { rewrite (leroy69_temperature_first depth sal temp Ht) in H.
      injection H as <-. left. split; reflexivity. }
    destruct ((sal <? 30) || (40 <? sal))%float eqn:Hs.
    { rewrite (leroy69_salinity_second depth sal temp Ht Hs) in H.
      injection H as <-. right. left. repeat split; reflexivity. }
    destruct ((depth <? 0) || (500 <? depth))%float eqn:Hd.
    { rewrite (leroy69_depth_third depth sal temp Ht Hs Hd) in H.
      injection H as <-. right. right. repeat split; reflexivity. }
    pose proof (leroy69_value_error_iff depth sal temp) as E.
    rewrite H, Ht, Hs, Hd in E. discriminate E.
  - intros [[Ht ->] | [[Ht [Hs ->]] | [Ht [Hs [Hd ->]]]]].
    + apply leroy69_temperature_first; assumption.
    + apply leroy69_salinity_second; assumption.
    + apply leroy69_depth_third; assumption.
Qed.

(** X2: [sound_speed_seawater_leroy69] ends in a speed or in the
    [OverflowError] of one of its two squares exactly when none of the three
    checks holds: an accepted input meets no other failure. *)
Theorem X2_leroy69_accepted_inputs (L : MathLib) (depth sal temp : float) :
  returns (Equations.sound_speed_seawater_leroy69 depth sal temp)
  || is_overflow_error (Equations.sound_speed_seawater_leroy69 depth sal temp)
  = negb (leroy69_temp_check temp || leroy69_sal_check sal
          || leroy69_depth_check depth).
Proof.
  unfold leroy69_temp_check, leroy69_sal_check, leroy69_depth_check.
  unfold Equations.sound_speed_seawater_leroy69.
  destruct ((temp <? -2) || (23 <? temp))%float; [reflexivity|].
  destruct ((sal <? 30) || (40 <? sal))%float; [reflexivity|].
  destruct ((depth <? 0) || (500 <? depth))%float; [reflexivity|].
  destruct (py_pow_2_cases (temp - 10)) as [[a Ha] | Ha]; rewrite Ha;
    [|reflexivity].
  destruct (py_pow_2_cases (temp - 18)) as [[b Hb] | Hb]; rewrite Hb;
    reflexivity.
Qed.

(** X3: a NaN temperature is not rejected.  Both comparisons of the
    temperature check are false for a NaN, so the call returns a value
    whenever the salinity and the depth pass their checks. *)
Theorem X3_leroy69_nan_temperature_accepted
  (L : MathLib) (depth sal temp : float) :
  is_nan temp = true ->
  returns (Equations.sound_speed_seawater_leroy69 depth sal temp)
  = negb (leroy69_sal_check sal || leroy69_depth_check depth).
Proof.
  intros Hn.
  unfold leroy69_sal_check, leroy69_depth_check.
  unfold Equations.sound_speed_seawater_leroy69.
  destruct (nan_ltb temp (-2) Hn) as [H1 _].
  destruct (nan_ltb temp 23 Hn) as [_ H2].
  rewrite H1, H2. cbn [orb].
  destruct ((sal <? 30) || (40 <? sal))%float; [reflexivity|].
  destruct ((depth <? 0) || (500 <? depth))%float; [reflexivity|].
  rewrite (py_pow_nan_base (temp - 10) 2 eq_refl (nan_sub_l temp 10 Hn)).
  rewrite (py_pow_nan_base (temp - 18) 2 eq_refl (nan_sub_l temp 18 Hn)).
  reflexivity.
Qed.

Lemma X3_leroy69_nan_temperature_accepted_witness :
  is_nan nan = true
  /\ returns (Equations.sound_speed_seawater_leroy69 (L := example_lib)
                100 35 nan)
     = negb (leroy69_sal_check 35 || leroy69_depth_check 100).
Proof.
  split; [reflexivity|].
  apply (X3_leroy69_nan_temperature_accepted example_lib 100 35 nan).
  reflexivity.
Defined.

(** X4: at the sea surface (depth 0) and at temperature 0,
    [sound_speed_sea_water_mackenzie81] carries no sound speed for any
    value of the other two arguments: its last assignment multiplies the
    running value by the temperature and by the cube of the depth, so the
    result is a zero or a NaN, unless a power overflowed before. *)
Theorem X4_mackenzie81_zero_factor (L : MathLib) :
  (forall sal temp : float,
      degenerate_outcome
        (Equations.sound_speed_sea_water_mackenzie81 0 sal temp) = true)
  /\ (forall depth sal : float,
         degenerate_outcome
           (Equations.sound_speed_sea_water_mackenzie81 depth sal 0) = true).
Proof.
  split.
  - intros sal temp. unfold Equations.sound_speed_sea_water_mackenzie81.
    destruct (py_pow_2_cases temp) as [[t2 H2] | H2]; rewrite H2;
      [|reflexivity].
    destruct (py_pow_3_cases temp) as [[t3 H3] | H3]; rewrite H3;
      [|reflexivity].
    cbn [bind].
    change (py_pow 0 2) with (Ok 0%float).
    change (py_pow 0 3) with (Ok 0%float).
    unfold degenerate_outcome; cbn [bind].
    apply mul_zero_or_nan_r. reflexivity.
  - intros depth sal. unfold Equations.sound_speed_sea_water_mackenzie81.
    change (py_pow 0 2) with (Ok 0%float).
    change (py_pow 0 3) with (Ok 0%float).
    cbn [bind].
    destruct (py_pow_2_cases depth) as [[d2 H2] | H2]; rewrite H2;
      [|reflexivity].
    destruct (py_pow_3_cases depth) as [[d3 H3] | H3]; rewrite H3;
      [|reflexivity].
    unfold degenerate_outcome; cbn [bind].
    apply mul_zero_or_nan_l. apply mul_zero_or_nan_r. reflexivity.
Qed.

(** X5: [sound_speed_sea_water_mackenzie81] validates nothing: for every
    depth, salinity and temperature, in any range, it returns a float or
    raises the [OverflowError] of one of its four powers, and nothing
    else. *)
Theorem X5_mackenzie81_unvalidated (L : MathLib) (depth sal temp : float) :
  returns (Equations.sound_speed_sea_water_mackenzie81 depth sal temp)
  || is_overflow_error
       (Equations.sound_speed_sea_water_mackenzie81 depth sal temp)
  = true.
Proof.
  unfold Equations.sound_speed_sea_water_mackenzie81.
  destruct (py_pow_2_cases temp) as [[t2 H2] | H2]; rewrite H2;
    [|reflexivity].
  destruct (py_pow_3_cases temp) as [[t3 H3] | H3]; rewrite H3;
    [|reflexivity].
  destruct (py_pow_2_cases depth) as [[d2 Hd2] | Hd2]; rewrite Hd2;
    [|reflexivity].
  destruct (py_pow_3_cases depth) as [[d3 Hd3] | Hd3]; rewrite Hd3;
    reflexivity.
Qed.

(** X6: the failure of [sound_speed_sea_water_leroy08] is decided by the
    temperature alone: it is the [OverflowError] of temp ** 2 or the
    [NameError] of [tmep], and it is the same for any two choices of depth,
    salinity and latitude. *)
Theorem X6_leroy08_failure_depends_on_temperature
  (L : MathLib) (temp depth sal lat depth' sal' lat' : float) :
  Equations.sound_speed_sea_water_leroy08 depth sal temp lat
  = Equations.sound_speed_sea_water_leroy08 depth' sal' temp lat'
  /\ (Equations.sound_speed_sea_water_leroy08 depth sal temp lat
      = Raise (NameError "tmep")
      \/ Equations.sound_speed_sea_water_leroy08 depth sal temp lat
         = Raise (OverflowError "(34, 'Numerical result out of range')")).
Proof.
  split; [|apply leroy08_outcome].
  unfold Equations.sound_speed_sea_water_leroy08.
  destruct (py_pow temp 2); reflexivity.
Qed.



Lemma cutoff_frequency_negative_depth_examples :
  Equations.cutoff_frequency (L := example_lib) 1500 (-4) = Complex
  /\ Equations.cutoff_frequency (L := example_lib) 1500 (-1e300)
     = Raise (OverflowError "complex exponentiation").
Proof. split; vm_compute; reflexivity. Qed.

(** X8: [cutoff_frequency_shallow] raises [ZeroDivisionError] exactly when
    [c_bottom] is zero.  A zero depth or a zero square root never raises:
    the outer division is numpy's. *)
Theorem X8_shallow_zero_division_iff_zero_bottom
  (L : MathLib) (c_water c_bottom depth : float) :
  is_zero_division_error
    (Equations.cutoff_frequency_shallow c_water c_bottom depth)
  = (c_bottom =? 0)%float.
Proof.
  unfold Equations.cutoff_frequency_shallow, py_truediv.
  destruct (c_bottom =? 0)%float; [reflexivity|].
  cbn [bind].
  destruct (py_pow_2_cases (c_water / c_bottom)) as [[q2 H] | H];
    rewrite H; reflexivity.
Qed.

(** X9: a NaN depth goes through [cutoff_frequency] without an error: the
    call returns, and what it returns is a NaN. *)
Theorem X9_cutoff_frequency_nan_depth
  (L : MathLib) (c_water depth : float) :
  is_nan depth = true ->
  exists f : float,
    Equations.cutoff_frequency c_water depth = Ok f /\ is_nan f = true.
Proof.
  intros Hn.
  unfold Equations.cutoff_frequency.
  rewrite (py_pow_nan_base depth 1.5 eq_refl Hn). cbn [bind].
  unfold py_truediv.
  pose proof (nan_mul_r 0.008 depth Hn) as Hm.
  rewrite (nan_eqb (0.008 * depth) 0 Hm).
  eexists. split; [reflexivity|].
  apply nan_div_r. exact Hm.
Qed.

Lemma X9_cutoff_frequency_nan_depth_witness :
  is_nan nan = true
  /\ exists f : float,
       Equations.cutoff_frequency (L := example_lib) 1500 nan = Ok f
       /\ is_nan f = true.
Proof.
  split; [reflexivity|].
  apply (X9_cutoff_frequency_nan_depth example_lib 1500 nan).
  reflexivity.
Defined.

(** ** Further properties of the profile retrieval *)

(** X10: the selection of lines 38-46 returns no profile for any dataset and
    any maximum pressure.  With no cast the loop body never runs and the
    [return] reads the unbound name [argo_profile]; with at least one cast
    the first pass of the loop reads the unbound name [curr_pres], whatever
    the casts hold. *)
Theorem X10_select_profile_never_returns
  (argo_profiles : list Argo.profile) (max_db : float) :
  Argo.select_profile argo_profiles max_db
  = Raise (NameError (if Nat.eqb (length argo_profiles) 0
                      then "argo_profile" else "curr_pres")).
Proof.
  rewrite select_profile_name_error. destruct argo_profiles; reflexivity.
Qed.

(** ** Signs of binary64 results

    Rounding keeps the sign: a product, a quotient or a square root of
    values with the sign bit clear has the sign bit clear, and so has 1 - q
    for a float q below 1. *)

Section RoundingSigns.

Variables prec emax : Z.

Lemma iter_pos_invariant {A : Type} (P : A -> Prop) (f : A -> A) :
  (forall x, P x -> P (f x)) ->
  forall (n : positive) (x : A), P x -> P (SpecFloat.iter_pos f n x).
Proof.
  intros Hf. induction n as [n IH | n IH |]; intros x Hx; simpl; auto.
Qed.

Lemma shr_1_nonneg (mrs : shr_record) :
  (0 <= shr_m mrs)%Z -> (0 <= shr_m (shr_1 mrs))%Z.
Proof.
  destruct mrs as [m r s]. simpl.
  destruct m as [| p | p]; [simpl; lia | | simpl; lia].
  destruct p; simpl; lia.
Qed.

Lemma shr_fexp_nonneg (m e : Z) (l : location) :
  (0 <= m)%Z -> (0 <= shr_m (fst (shr_fexp prec emax m e l)))%Z.
Proof.
  intros Hm. unfold shr_fexp, shr.
  assert (H0 : (0 <= shr_m (shr_record_of_loc m l))%Z).
  { destruct l as [| []]; simpl; exact Hm. }
  destruct (fexp prec emax (Zdigits2 m + e) - e)%Z; simpl; auto.
  apply (iter_pos_invariant (fun mrs => (0 <= shr_m mrs)%Z)); auto.
  apply shr_1_nonneg.
Qed.

Lemma round_nearest_even_nonneg (m : Z) (l : location) :
  (0 <= m)%Z -> (0 <= round_nearest_even m l)%Z.
Proof.
  intros Hm. destruct l as [| []]; simpl; try lia.
  destruct (Z.even m); lia.
Qed.

Lemma binary_round_aux_nonneg (mx ex : Z) (lx : location) :
  (0 <= mx)%Z -> sf_nonneg (binary_round_aux prec emax false mx ex lx) = true.
Proof.
  intros Hm. unfold binary_round_aux.
  pose proof (shr_fexp_nonneg mx ex lx Hm) as H1.
  destruct (shr_fexp prec emax mx ex lx) as [mrs' e']. simpl in H1.
  pose proof (shr_fexp_nonneg _ e' loc_Exact
                (round_nearest_even_nonneg _ (loc_of_shr_record mrs') H1))
    as H2.
  destruct (shr_fexp prec emax _ e' loc_Exact) as [mrs'' e'']. simpl in H2.
  destruct (shr_m mrs'') as [| p | p]; [reflexivity | | lia].
  destruct (e'' <=? emax - prec)%Z; reflexivity.
Qed.

Lemma binary_normalize_nonneg (m e : Z) :
  (0 <= m)%Z -> sf_nonneg (binary_normalize prec emax m e false) = true.
Proof.
  intros Hm. unfold binary_normalize.
  destruct m as [| p | p]; [reflexivity | | lia].
  unfold binary_round.
  destruct (shl_align p e _) as [mz ez].
  apply binary_round_aux_nonneg. lia.
Qed.

Lemma SFmul_nonneg (m : positive) (e : Z) (y : spec_float) :
  sf_nonneg y = true ->
  sf_nonneg (SFmul prec emax (S754_finite false m e) y) = true.
Proof.
  destruct y as [[] | [] | | [] my ey]; simpl; try discriminate; intros _;
    try reflexivity.
  apply binary_round_aux_nonneg. lia.
Qed.

Lemma SFsqrt_nonneg (x : spec_float) :
  sf_nonneg x = true -> sf_nonneg (SFsqrt prec emax x) = true.
Proof.
  destruct x as [[] | [] | | [] mx ex]; simpl; try discriminate; intros _;
    try reflexivity.
  unfold SFsqrt_core_binary.
  set (m' := match (ex - 2 * _)%Z with Z0 => _ | Zpos _ => _ | Zneg _ => _ end).
  assert (Hm' : (0 <= m')%Z).
  { subst m'. destruct (ex - 2 * _)%Z; try lia.
    apply Z.shiftl_nonneg. lia. }
  pose proof (Z.sqrtrem_spec m' Hm') as Hs.
  destruct (Z.sqrtrem m') as [q r].
  apply binary_round_aux_nonneg. nia.
Qed.

Lemma SFdiv_nonneg (m : positive) (e : Z) (y : spec_float) :
  sf_nonneg y = true ->
  sf_nonneg (SFdiv prec emax (S754_finite false m e) y) = true.
Proof.
  destruct y as [[] | [] | | [] my ey]; simpl; try discriminate; intros _;
    try reflexivity.
  unfold SFdiv_core_binary.
  set (m' := match (_ - _ - _)%Z with Z0 => _ | Zpos _ => _ | Zneg _ => _ end).
  assert (Hm' : (0 <= m')%Z).
  { subst m'. destruct (_ - _ - _)%Z; try lia.
    apply Z.shiftl_nonneg. lia. }
  pose proof (Z.div_pos m' (Z.pos my) Hm' ltac:(lia)) as Hq.
  unfold Z.div in Hq.
  destruct (Z.div_eucl m' (Z.pos my)) as [q r].
  apply binary_round_aux_nonneg. exact Hq.
Qed.

End RoundingSigns.

Lemma digits2_pos_bound (m : positive) :
  (Z.pos m < 2 ^ Z.pos (digits2_pos m))%Z.
Proof.
  induction m as [m IH | m IH |]; cbn [digits2_pos].
  - rewrite Pos2Z.inj_succ, Z.pow_succ_r by lia. lia.
  - rewrite Pos2Z.inj_succ, Z.pow_succ_r by lia. lia.
  - reflexivity.
Qed.

Lemma iter_xO_lower (d p : positive) :
  (2 * Z.pos p <= Z.pos (Pos.iter xO p d))%Z.
Proof.
  revert p. induction d as [| d IH] using Pos.peano_ind; intros p.
  - cbn [Pos.iter]. lia.
  - rewrite Pos.iter_succ. specialize (IH p). lia.
Qed.

(** The mantissa of a binary64 number is below 2^53. *)
Lemma bounded_mantissa (m : positive) (e : Z) :
  bounded prec emax m e = true -> (Z.pos m < two_53)%Z.
Proof.
  unfold bounded, canonical_mantissa, fexp, emin.
  intros H. apply andb_prop in H. destruct H as [H _].
  apply Z.eqb_eq in H.
  pose proof (digits2_pos_bound m) as Hb.
  assert (Hd : (Z.pos (digits2_pos m) <= 53)%Z).
  { unfold prec, emax in H. lia. }
  eapply Z.lt_le_trans; [exact Hb|].
  change two_53 with (2 ^ 53)%Z.
  apply Z.pow_le_mono_r; lia.
Qed.

Lemma SFsub_one_nonneg (q : spec_float) :
  valid_binary q = true ->
  SFltb q sf_one = true ->
  sf_nonneg (SF64sub sf_one q) = true.
Proof.
  intros Hv Hlt. unfold SF64sub.
  destruct q as [s | s | | s m e].
  - reflexivity.
  - destruct s; [reflexivity | discriminate Hlt].
  - discriminate Hlt.
  - unfold sf_one, SFsub. apply binary_normalize_nonneg.
    destruct s; cbn [cond_Zopp]; [lia|].
    unfold SFltb, SFcompare, sf_one in Hlt.
    unfold valid_binary, SpecFloat.valid_binary in Hv.
    apply bounded_mantissa in Hv. unfold two_53 in Hv.
    destruct (Z.compare_spec e (-52)) as [He | He | He];
      [ | | discriminate Hlt].
    + subst e.
      rewrite Pos.compare_cont_spec in Hlt.
      destruct (Pos.compare_spec m 4503599627370496) as [Hc | Hc | Hc];
        try discriminate Hlt.
      rewrite Z.min_id. unfold shl_align. rewrite Z.sub_diag. cbn [fst].
      apply Z.le_0_sub, Z.lt_le_incl. exact Hc.
    + rewrite Z.min_r by (apply Z.lt_le_incl; exact He).
      unfold shl_align. rewrite Z.sub_diag.
      destruct (e - -52)%Z as [| d | d] eqn:Hd;
        [exfalso; clear Hv Hlt; lia | exfalso; clear Hv Hlt; lia |].
      cbn [fst].
      pose proof (iter_xO_lower d 4503599627370496) as Hl.
      apply Z.le_0_sub, Z.lt_le_incl.
      eapply Z.lt_le_trans; [exact Hv | exact Hl].
Qed.

(** The same facts on the primitive floats. *)

Lemma sf_nonneg_not_nan_not_negative (f : float) :
  sf_nonneg (Prim2SF f) = true ->
  is_nan f = false /\ (f <? 0)%float = false.
Proof.
  intros H. split.
  - destruct (is_nan f) eqn:E; [|reflexivity].
    apply is_nan_spec in E. rewrite E in H. discriminate H.
  - rewrite FloatAxioms.ltb_spec.
    change (Prim2SF 0) with (S754_zero false). unfold SFltb.
    destruct (Prim2SF f) as [[] | [] | | [] m e]; try discriminate H;
      reflexivity.
Qed.

Lemma positive_float_shape (x : float) :
  (0 <? x)%float = true ->
  Prim2SF x = S754_infinity false
  \/ exists m e, Prim2SF x = S754_finite false m e.
Proof.
  rewrite FloatAxioms.ltb_spec.
  change (Prim2SF 0) with (S754_zero false). unfold SFltb.
  destruct (Prim2SF x) as [s | [] | | [] m e]; simpl; try discriminate;
    eauto.
Qed.

Lemma positive_finite_float_shape (x : float) :
  (0 <? x)%float = true -> is_infinity x = false ->
  exists m e, Prim2SF x = S754_finite false m e.
Proof.
  intros Hp Hf.
  destruct (positive_float_shape x Hp) as [H | H]; [|exact H].
  unfold is_infinity in Hf.
  rewrite FloatAxioms.eqb_spec, FloatAxioms.abs_spec, H in Hf. discriminate Hf.
Qed.

(** A positive float below another float is finite, and the other one is
    not zero. *)
Lemma positive_below_shape (x y : float) :
  (0 <? x)%float = true -> (x <? y)%float = true ->
  (exists m e, Prim2SF x = S754_finite false m e) /\ (y =? 0)%float = false.
Proof.
  intros Hp Hlt.
  rewrite FloatAxioms.ltb_spec in Hlt. rewrite FloatAxioms.eqb_spec.
  change (Prim2SF 0) with (S754_zero false).
  unfold SFltb in Hlt. unfold SFeqb.
  destruct (positive_float_shape x Hp) as [H | (m & e & H)];
    rewrite H in Hlt.
  - destruct (Prim2SF y) as [s | [] | | s m e]; discriminate Hlt.
  - split; [eauto|].
    destruct (Prim2SF y) as [s | [] | | [] my ey]; try discriminate Hlt;
      reflexivity.
Qed.

Lemma one_minus_nonneg (q : float) :
  (q <? 1)%float = true -> sf_nonneg (Prim2SF (1 - q)) = true.
Proof.
  intros H. rewrite FloatAxioms.ltb_spec in H.
  rewrite FloatAxioms.sub_spec.
  change (Prim2SF 1) with sf_one in *.
  apply SFsub_one_nonneg; [apply Prim2SF_valid | exact H].
Qed.

Section ShallowSign.

Context {L : MathLib}.

(** With 0 < c_water < c_bottom, a positive finite depth and a square of
    the quotient below 1, the shallow-water cutoff is a float that is no
    NaN and not negative. *)
Lemma cutoff_frequency_shallow_sign (c_water c_bottom depth q2 : float) :
  (0 <? c_water)%float = true ->
  (c_water <? c_bottom)%float = true ->
  (0 <? depth)%float = true ->
  is_infinity depth = false ->
  py_pow (c_water / c_bottom) 2 = Ok q2 ->
  (q2 <? 1)%float = true ->
  exists f : float,
    Equations.cutoff_frequency_shallow c_water c_bottom depth = Ok f
    /\ is_nan f = false
    /\ (f <? 0)%float = false.
Proof.
  intros Hw Hwb Hd Hdf Hq Hq1.
  destruct (positive_below_shape c_water c_bottom Hw Hwb)
    as [(mw & ew & Ew) Hb0].
  destruct (positive_finite_float_shape depth Hd Hdf) as (md & ed & Ed).
  unfold Equations.cutoff_frequency_shallow, py_truediv.
  rewrite Hb0. cbn [bind]. rewrite Hq. cbn [bind].
  eexists. split; [reflexivity|].
  apply sf_nonneg_not_nan_not_negative.
  unfold np_truediv, np_sqrt.
  rewrite FloatAxioms.div_spec, Ew. apply SFdiv_nonneg.
  rewrite FloatAxioms.mul_spec, Ed. apply SFmul_nonneg.
  rewrite FloatAxioms.sqrt_spec. apply SFsqrt_nonneg.
  apply one_minus_nonneg. exact Hq1.
Qed.

End ShallowSign.

(** C4, as stated, fails in both halves.  With a bottom slower than the
    water (c_water = 1500, c_bottom = 1490, depth = 50) the call raises
    nothing and returns a NaN.  With a faster bottom (c_water = 1500,
    c_bottom = 1600) the result is an infinity at depth 0 and at depth
    1e-310, and negative at depth -50; with c_water = 1e-310,
    c_bottom = 1600 and depth 1e300 it is zero: not a finite positive
    frequency. *)
Lemma C4_shallow_counterexamples :
  Equations.cutoff_frequency_shallow (L := example_lib) 1500 1490 50 = Ok nan
  /\ Equations.cutoff_frequency_shallow (L := example_lib) 1500 1600 0
     = Ok infinity
  /\ Equations.cutoff_frequency_shallow (L := example_lib) 1500 1600 1e-310
     = Ok infinity
  /\ Equations.cutoff_frequency_shallow (L := example_lib) 1500 1600 (-50)
     = Ok (-86.210544972851963)%float
  /\ Equations.cutoff_frequency_shallow (L := example_lib) 1e-310 1600 1e300
     = Ok 0%float.
Proof. repeat split; vm_compute; reflexivity. Qed.

(** C4, amended: [cutoff_frequency_shallow] compares the two speeds
    nowhere and raises no domain error ([ValueError]) on any input; for
    c_water = 1500, c_bottom = 1490, depth = 50 it returns a NaN, for equal
    speeds of 1500 an infinity, and for c_water = 1500, c_bottom = 1600,
    depth = 50 a finite positive frequency.  Whenever
    0 < c_water < c_bottom, the depth is positive and finite and the square
    of the quotient is a float below 1, it returns a float that is no NaN
    and not negative. *)
Theorem C4_shallow_has_no_domain_error :
  (forall (L : MathLib) (c_water c_bottom depth : float),
      is_value_error
        (Equations.cutoff_frequency_shallow (L := L) c_water c_bottom depth)
      = false)
  /\ Equations.cutoff_frequency_shallow (L := example_lib) 1500 1490 50
     = Ok nan
  /\ (forall L : MathLib,
         Equations.cutoff_frequency_shallow (L := L) 1500 1500 50
         = Ok infinity)
  /\ (exists f : float,
         Equations.cutoff_frequency_shallow (L := example_lib) 1500 1600 50
         = Ok f
         /\ (0 <? f)%float = true
         /\ is_infinity f = false
         /\ is_nan f = false)
  /\ (forall (L : MathLib) (c_water c_bottom depth q2 : float),
         (0 <? c_water)%float = true ->
         (c_water <? c_bottom)%float = true ->
         (0 <? depth)%float = true ->
         is_infinity depth = false ->
         py_pow (c_water / c_bottom) 2 = Ok q2 ->
         (q2 <? 1)%float = true ->
         exists f : float,
           Equations.cutoff_frequency_shallow c_water c_bottom depth = Ok f
           /\ is_nan f = false
           /\ (f <? 0)%float = false).
Proof.
  split; [intros; apply cutoff_frequency_shallow_not_value_error|].
  split; [vm_compute; reflexivity|].
  split; [intros; reflexivity|].
  split.
  - exists 86.210544972851963%float. repeat split; vm_compute; reflexivity.
  - intros L c_water c_bottom depth q2.
    apply cutoff_frequency_shallow_sign.
Qed.

(** The general half of the amended C4 at c_water = 1500, c_bottom = 1600,
    depth = 50 with the example library, where the square of the quotient
    is 0.87890625. *)
Lemma C4_shallow_has_no_domain_error_witness :
  (0 <? 1500)%float = true
  /\ (1500 <? 1600)%float = true
  /\ (0 <? 50)%float = true
  /\ is_infinity 50 = false
  /\ py_pow (L := example_lib) (1500 / 1600) 2 = Ok 0.87890625%float
  /\ (0.87890625 <? 1)%float = true
  /\ exists f : float,
       Equations.cutoff_frequency_shallow (L := example_lib) 1500 1600 50
       = Ok f
       /\ is_nan f = false
       /\ (f <? 0)%float = false.
Proof.
  repeat (split; [vm_compute; reflexivity|]).
  destruct C4_shallow_has_no_domain_error as (_ & _ & _ & _ & H).
  apply (H example_lib 1500 1600 50 0.87890625); vm_compute; reflexivity.
Defined.
